(** * ProjectCard: the card component of the portfolio

    A shallow embedding of [src/components/common/ProjectCard.tsx]: the
    component's two pieces of local state, its image-source selection, its
    two image callbacks and the element tree it returns, followed by the
    properties of the card's contract.

    Strings are held as byte strings ([string] of the Standard Library): a
    piece of text is the sequence of the bytes of its UTF-8 form.  Ill-formed
    UTF-16 (a lone surrogate), on which [encodeURIComponent] raises
    [URIError], has no UTF-8 form and lies outside this model. *)

From Stdlib Require Import Strings.String Strings.Ascii Lists.List Bool.Bool.
From Stdlib Require Import Arith.PeanoNat micromega.Lia.
Import ListNotations.
Local Open Scope string_scope.
Local Open Scope list_scope.

Set Implicit Arguments.

(** ** The values the component reads *)

Module Js.

(** What a property read can evaluate to in this component: nothing, a
    string, one of the built-in functions, or a plain object. *)
Inductive Value : Type :=
| Undefined
| Str (s : string)
| NativeFunction (name : string)
| Object.

(** [ToBoolean]. *)
Definition truthy (v : Value) : bool :=
  match v with
  | Undefined => false
  | Str s => negb (s =? EmptyString)
  | NativeFunction _ => true
  | Object => true
  end.

(** [ToString], as a template literal applies it.  The text of a built-in
    function is the one V8 prints; other engines differ in the white space
    around [[native code]] only. *)
Definition toString (v : Value) : string :=
  match v with
  | Undefined => "undefined"
  | Str s => s
  | NativeFunction name => "function " ++ name ++ "() { [native code] }"
  | Object => "[object Object]"
  end.

(** [a || b]. *)
Definition or (a b : Value) : Value := if truthy a then a else b.

(** An optional string property: absent is [undefined]. *)
Definition ofOption (o : option string) : Value :=
  match o with
  | Some s => Str s
  | None => Undefined
  end.

Fixpoint assoc {A : Type} (k : string) (l : list (string * A)) : option A :=
  match l with
  | [] => None
  | (k', v) :: rest => if k =? k' then Some v else assoc k rest
  end.

(** The properties every object literal inherits from [Object.prototype]
    (ECMAScript, with Annex B).  [constructor] is the function [Object];
    the accessor [__proto__] reads as the prototype object itself. *)
Definition objectPrototype : list (string * Value) :=
  [ ("constructor", NativeFunction "Object");
    ("hasOwnProperty", NativeFunction "hasOwnProperty");
    ("isPrototypeOf", NativeFunction "isPrototypeOf");
    ("propertyIsEnumerable", NativeFunction "propertyIsEnumerable");
    ("toLocaleString", NativeFunction "toLocaleString");
    ("toString", NativeFunction "toString");
    ("valueOf", NativeFunction "valueOf");
    ("__proto__", Object);
    ("__defineGetter__", NativeFunction "__defineGetter__");
    ("__defineSetter__", NativeFunction "__defineSetter__");
    ("__lookupGetter__", NativeFunction "__lookupGetter__");
    ("__lookupSetter__", NativeFunction "__lookupSetter__") ].

(** [obj[key]] on an object literal with string-valued own properties:
    the own property if there is one, else the inherited one, else
    [undefined]. *)
Definition get (own : list (string * string)) (key : string) : Value :=
  match assoc key own with
  | Some s => Str s
  | None =>
      match assoc key objectPrototype with
      | Some v => v
      | None => Undefined
      end
  end.

(** *** [encodeURIComponent] *)

Definition between (lo hi : nat) (c : ascii) : bool :=
  Nat.leb lo (nat_of_ascii c) && Nat.leb (nat_of_ascii c) hi.

(** The characters [encodeURIComponent] leaves alone:
    [A-Z a-z 0-9 - _ . ! ~ * ' ( )]. *)
Definition uriUnreserved (c : ascii) : bool :=
  between 65 90 c || between 97 122 c || between 48 57 c
  || existsb (Ascii.eqb c) (list_ascii_of_string "-_.!~*'()").

Definition hexDigit (d : nat) : ascii :=
  match String.get d "0123456789ABCDEF" with
  | Some c => c
  | None => "0"%char
  end.

Definition percentEscape (c : ascii) : string :=
  String "%" (String (hexDigit (nat_of_ascii c / 16))
             (String (hexDigit (nat_of_ascii c mod 16)) EmptyString)).

(** Every byte of the UTF-8 form that is not an unreserved character is
    replaced by its [%XX] escape. *)
Fixpoint encodeURIComponent (s : string) : string :=
  match s with
  | EmptyString => EmptyString
  | String c rest =>
      (if uriUnreserved c then String c EmptyString else percentEscape c)
      ++ encodeURIComponent rest
  end.

End Js.

(** ** Props and state *)

(** Modelled from the spec: the [Project] type of [../../types], which is not
    among the sources.  The fields are the ones the component reads;
    [image], [github], [liveDemo] and [featured] may be absent.  The category
    is the string that the component looks up and shows: [blockchain],
    [frontend], [fullstack], or any other. *)
Record Project : Type := mkProject {
  title : string;
  description : string;
  category : string;
  technologies : list string;
  image : option string;
  github : option string;
  liveDemo : option string;
  featured : option bool
}.

(** The two [useState] cells (lines 12-13). *)
Record RenderState : Type := mkState {
  imageError : bool;
  imageLoading : bool
}.

(** [useState(false)] and [useState(true)]. *)
Definition initialState : RenderState :=
  {| imageError := false; imageLoading := true |}.

(** [project.featured] as a condition. *)
Definition truthyFlag (b : option bool) : bool :=
  match b with
  | Some true => true
  | _ => false
  end.

(** ** Image source (lines 16-31) *)

Definition categoryColors : list (string * string) :=
  [ ("blockchain", "1e293b/0ea5e9");
    ("frontend", "1e1b4b/a855f7");
    ("fullstack", "422006/d97706") ].

(** Lines 22-28: the fallback placeholder. *)
Definition placeholderSource (project : Project) : string :=
  let color := Js.or (Js.get categoryColors (category project))
                     (Js.Str "1e293b/64748b") in
  "https://via.placeholder.com/800x600/" ++ Js.toString color
    ++ "?text=" ++ Js.encodeURIComponent (title project).

(** The string behind an optional property that tested truthy. *)
Definition stringOf (o : option string) : string :=
  match o with
  | Some s => s
  | None => EmptyString
  end.

Definition getImageSource (project : Project) (st : RenderState) : string :=
  if Js.truthy (Js.ofOption (image project)) && negb (imageError st)
  then stringOf (image project)
  else placeholderSource project.

(** ** Callbacks (lines 33-40) *)

Definition handleImageLoad (st : RenderState) : RenderState :=
  {| imageError := imageError st; imageLoading := false |}.

Definition handleImageError (st : RenderState) : RenderState :=
  {| imageError := true; imageLoading := false |}.

(** ** The element tree (lines 42-187)

    What the component returns: elements with their string props, the
    callbacks attached to them, and their children in document order.  A
    [motion.x] element is the DOM element [x]; the props that only drive
    framer-motion ([variants], [initial], [whileInView], [viewport],
    [transition], [whileHover], [whileTap], [style]) carry no data of the
    card and are left out, and so is React's [key]. *)

Definition Handler : Type := RenderState -> RenderState.

#[local] Set Warnings "-register-all".
Inductive Node : Type :=
| Element (tag : string) (attrs : list (string * string))
          (on : list (string * Handler)) (children : list Node)
| Text (s : string).

(** An element that has a class and no callback. *)
Definition el (tag className : string) (children : list Node) : Node :=
  Element tag [("className", className)] [] children.

(** [{cond && <x/>}]: the element when the condition is truthy, nothing
    otherwise. *)
Definition when (cond : bool) (n : Node) : list Node :=
  if cond then [n] else [].

(** Lines 56-61. *)
Definition loadingOverlay : Node :=
  el "div" "absolute inset-0 flex items-center justify-center bg-gradient-to-br from-slate-800 to-slate-900 z-10"
    [ el "div" "text-center"
        [ el "div" "w-8 h-8 border-4 border-blue-500 border-t-transparent rounded-full animate-spin mx-auto mb-3" [];
          el "div" "text-slate-400 text-sm" [Text "Loading preview..."] ] ].

(** Lines 65-76. *)
Definition projectImage (project : Project) (st : RenderState) : Node :=
  let imageSrc := getImageSource project st in
  Element "img"
    [ ("src", imageSrc);
      ("alt", ("Preview of " ++ title project)%string);
      ("className",
        ("h-full w-full object-cover transition-all duration-500 "
         ++ (if imageLoading st then "opacity-0"
             else "opacity-100 group-hover:opacity-90"))%string);
      ("loading", "lazy") ]
    [ ("onLoad", handleImageLoad); ("onError", handleImageError) ]
    [].

(** Lines 83-88. *)
Definition liveDemoBadge : Node :=
  el "div" "absolute top-3 left-3 z-20"
    [ el "span" "rounded-full bg-green-500/90 px-3 py-1.5 text-xs font-semibold text-white backdrop-blur-sm flex items-center gap-1.5 shadow-lg"
        [ el "span" "w-2 h-2 bg-green-400 rounded-full animate-pulse" [];
          Text "LIVE DEMO" ] ].

(** Lines 93-97. *)
Definition featuredBadge : Node :=
  el "div" "absolute top-3 right-3 z-20"
    [ el "span" "rounded-full bg-blue-500/90 px-3 py-1.5 text-xs font-semibold text-white backdrop-blur-sm flex items-center gap-1.5 shadow-lg"
        [ Text "⭐ Featured" ] ].

(** Lines 128-139: one technology tag. *)
Definition techTag (tech : string) : Node :=
  el "span" "rounded-full bg-slate-700/80 px-3 py-1.5 text-xs font-medium text-slate-200 backdrop-blur-sm border border-slate-600/50"
    [ Text tech ].

(** Lines 146-158. *)
Definition codeLink (href : string) : Node :=
  Element "a"
    [ ("href", href);
      ("target", "_blank");
      ("rel", "noopener noreferrer");
      ("className", "flex items-center justify-center gap-2 rounded-lg bg-slate-700/80 py-3 px-4 text-sm font-semibold text-white transition-all hover:bg-slate-600/80 backdrop-blur-sm border border-slate-600/50 flex-1") ]
    []
    [ Element "svg"
        [ ("className", "w-4 h-4"); ("fill", "currentColor");
          ("viewBox", "0 0 24 24") ]
        []
        [ Element "path"
            [ ("d", "M12 0c-6.626 0-12 5.373-12 12 0 5.302 3.438 9.8 8.207 11.387.599.111.793-.261.793-.577v-2.234c-3.338.726-4.033-1.416-4.033-1.416-.546-1.387-1.333-1.756-1.333-1.756-1.089-.745.083-.729.083-.729 1.205.084 1.839 1.237 1.839 1.237 1.07 1.834 2.807 1.304 3.492.997.107-.775.418-1.305.762-1.604-2.665-.305-5.467-1.334-5.467-5.931 0-1.311.469-2.381 1.236-3.221-.124-.303-.535-1.524.117-3.176 0 0 1.008-.322 3.301 1.23.957-.266 1.983-.399 3.003-.404 1.02.005 2.047.138 3.006.404 2.291-1.552 3.297-1.23 3.297-1.23.653 1.653.242 2.874.118 3.176.77.84 1.235 1.911 1.235 3.221 0 4.609-2.807 5.624-5.479 5.921.43.372.823 1.102.823 2.222v3.293c0 .319.192.694.801.576 4.765-1.589 8.199-6.086 8.199-11.386 0-6.627-5.373-12-12-12z") ]
            [] [] ];
      Element "span" [] [] [ Text "Code" ] ].

(** Lines 161-173. *)
Definition liveDemoLink (href : string) : Node :=
  Element "a"
    [ ("href", href);
      ("target", "_blank");
      ("rel", "noopener noreferrer");
      ("className", "flex items-center justify-center gap-2 rounded-lg bg-gradient-to-r from-green-600 to-emerald-600 py-3 px-4 text-sm font-semibold text-white transition-all hover:from-green-700 hover:to-emerald-700 shadow-lg flex-1") ]
    []
    [ Element "svg"
        [ ("className", "w-4 h-4"); ("fill", "none");
          ("stroke", "currentColor"); ("viewBox", "0 0 24 24") ]
        []
        [ Element "path"
            [ ("strokeLinecap", "round"); ("strokeLinejoin", "round");
              ("strokeWidth", "2");
              ("d", "M10 6H6a2 2 0 00-2 2v10a2 2 0 002 2h10a2 2 0 002-2v-4M14 4h6m0 0v6m0-6L10 14") ]
            [] [] ];
      Element "span" [] [] [ Text "Live Demo" ] ].

(** Lines 53-99: the image container. *)
Definition imageContainer (project : Project) (st : RenderState) : Node :=
  el "div" "relative h-48 w-full overflow-hidden"
    ( when (imageLoading st) loadingOverlay
      ++ [ projectImage project st;
           el "div" "absolute inset-0 bg-gradient-to-t from-slate-900/80 via-transparent to-transparent" [] ]
      ++ when (Js.truthy (Js.ofOption (liveDemo project))) liveDemoBadge
      ++ when (truthyFlag (featured project)) featuredBadge ).

(** Lines 102-176: category, title, description, tags and links. *)
Definition content (project : Project) : Node :=
  el "div" "relative p-6"
    [ el "div" "mb-3 inline-block"
        [ el "span" "rounded-full bg-blue-500/20 px-3 py-1 text-xs font-semibold uppercase text-blue-300 border border-blue-500/30"
            [ Text (category project) ] ];
      el "h3" "mb-3 text-xl font-bold text-white transition-colors group-hover:text-blue-400"
        [ Text (title project) ];
      el "p" "mb-4 text-sm text-slate-300 leading-relaxed"
        [ Text (description project) ];
      el "div" "mb-6 flex flex-wrap gap-2"
        (map techTag (technologies project));
      el "div" "flex gap-3"
        ( when (Js.truthy (Js.ofOption (github project)))
               (codeLink (stringOf (github project)))
          ++ when (Js.truthy (Js.ofOption (liveDemo project)))
                  (liveDemoLink (stringOf (liveDemo project))) ) ].

(** The component.  [index] is read by the entrance delay only. *)
Definition ProjectCard (project : Project) (index : nat) (st : RenderState)
  : Node :=
  el "div" "group relative overflow-hidden rounded-lg border border-slate-700 bg-gradient-to-br from-slate-900 to-slate-800 shadow-xl"
    [ imageContainer project st;
      content project;
      el "div" "absolute bottom-0 left-0 h-1 w-full bg-gradient-to-r from-blue-500 via-purple-500 to-pink-500" [] ].

(** ** Reading the tree *)

(** A node and everything below it, in document order. *)
Fixpoint descendants (n : Node) : list Node :=
  n :: match n with
       | Element _ _ _ children => flat_map descendants children
       | Text _ => []
       end.

Definition hasTag (tag : string) (n : Node) : bool :=
  match n with
  | Element t _ _ _ => t =? tag
  | Text _ => false
  end.

Definition attr (name : string) (n : Node) : option string :=
  match n with
  | Element _ attrs _ _ => Js.assoc name attrs
  | Text _ => None
  end.

Definition callbacks (n : Node) : list (string * Handler) :=
  match n with
  | Element _ _ on _ => on
  | Text _ => []
  end.

(** The elements of a tree that have the given tag, in document order. *)
Definition byTag (tag : string) (tree : Node) : list Node :=
  filter (hasTag tag) (descendants tree).

(** The text a node shows: its text nodes, in document order. *)
Definition textOf (tree : Node) : list string :=
  flat_map (fun n => match n with Text s => [s] | Element _ _ _ _ => [] end)
           (descendants tree).

(** The [src] of every image of the tree. *)
Definition imageSources (tree : Node) : list (option string) :=
  map (attr "src") (byTag "img" tree).

Fixpoint attrsEqb (a b : list (string * string)) : bool :=
  match a, b with
  | [], [] => true
  | (k, v) :: a', (k', v') :: b' => (k =? k') && (v =? v') && attrsEqb a' b'
  | _, _ => false
  end.

(** Same markup: same tags, same string props, same children.  Callbacks
    are not markup. *)
Fixpoint markupEqb (a b : Node) : bool :=
  match a, b with
  | Text s, Text t => s =? t
  | Element t1 a1 _ c1, Element t2 a2 _ c2 =>
      (t1 =? t2) && attrsEqb a1 a2
      && (fix all (cs ds : list Node) : bool :=
            match cs, ds with
            | [], [] => true
            | c :: cs', d :: ds' => markupEqb c d && all cs' ds'
            | _, _ => false
            end) c1 c2
  | _, _ => false
  end.

(** [part] is rendered somewhere in [tree]. *)
Definition occurs (part tree : Node) : bool :=
  existsb (markupEqb part) (descendants tree).

(** A link, told by the label it shows. *)
Definition isLink (label : string) (n : Node) : bool :=
  hasTag "a" n
  && match textOf n with
     | [t] => t =? label
     | _ => false
     end.

Definition linkRendered (label : string) (tree : Node) : bool :=
  existsb (isLink label) (descendants tree).

(** The label of a node that is a technology tag. *)
Definition tagLabel (n : Node) : list string :=
  match n with
  | Element _ _ _ [Text t] => if markupEqb (techTag t) n then [t] else []
  | _ => []
  end.

(** The technology tags a tree shows, in document order. *)
Definition shownTags (tree : Node) : list string :=
  flat_map tagLabel (descendants tree).

Definition childrenOf (n : Node) : list Node :=
  match n with
  | Element _ _ _ children => children
  | Text _ => []
  end.

(** The image area of a card: the first child of its root (lines 53-99),
    where the overlay, the image and the badges are. *)
Definition imageArea (tree : Node) : Node :=
  hd (Text EmptyString) (childrenOf tree).

(** [text] is one of the texts that a node shows. *)
Definition shows (text : string) (n : Node) : bool :=
  existsb (String.eqb text) (textOf n).

(** The text a node shows on the page: an empty string makes no text
    node. *)
Definition visibleText (tree : Node) : list string :=
  filter (fun s => negb (s =? EmptyString)) (textOf tree).

(** ** Image events *)

Inductive ImageEvent : Type := OnLoad | OnError.

Definition eventProp (ev : ImageEvent) : string :=
  match ev with
  | OnLoad => "onLoad"
  | OnError => "onError"
  end.

(** An event runs the callback that the tree has for it, if any. *)
Definition dispatch (ev : ImageEvent) (tree : Node) (st : RenderState)
  : RenderState :=
  match Js.assoc (eventProp ev) (flat_map callbacks (descendants tree)) with
  | Some handler => handler st
  | None => st
  end.

(** One event on the card as last rendered. *)
Definition step (project : Project) (index : nat) (st : RenderState)
  (ev : ImageEvent) : RenderState :=
  dispatch ev (ProjectCard project index st) st.

(** The state of each render: the first one, then one after each event. *)
Fixpoint renders (project : Project) (index : nat) (st : RenderState)
  (evs : list ImageEvent) : list RenderState :=
  st :: match evs with
        | [] => []
        | ev :: rest => renders project index (step project index st ev) rest
        end.

(** How often a flag goes from [from] to its negation along a history. *)
Fixpoint flips (from : bool) (history : list bool) : nat :=
  match history with
  | a :: (b :: _) as rest =>
      (if Bool.eqb a from && Bool.eqb b (negb from) then 1 else 0)
      + flips from rest
  | _ => 0
  end.

(** ** The placeholder in the spec's words *)

(** The four colour pairs, keyed by category, the fourth for any other
    category. *)
Definition colorPair (category : string) : string :=
  if category =? "blockchain" then "1e293b/0ea5e9"
  else if category =? "frontend" then "1e1b4b/a855f7"
  else if category =? "fullstack" then "422006/d97706"
  else "1e293b/64748b".

(** [https://via.placeholder.com/800x600/{bgHex}/{fgHex}?text={urlEncodedTitle}]. *)
Definition placeholderUrl (project : Project) : string :=
  "https://via.placeholder.com/800x600/" ++ colorPair (category project)
    ++ "?text=" ++ Js.encodeURIComponent (title project).

(** The names an object literal answers to without having them. *)
Definition inherited (key : string) : bool :=
  match Js.assoc key Js.objectPrototype with
  | Some _ => true
  | None => false
  end.

(** ** Sequences of events *)

(** The state after a sequence of events. *)
Definition run (project : Project) (index : nat) (st : RenderState)
  (evs : list ImageEvent) : RenderState :=
  fold_left (step project index) evs st.

Definition isError (ev : ImageEvent) : bool :=
  match ev with
  | OnError => true
  | OnLoad => false
  end.

(** ** Reading the image element and the encoded title *)

(** The class of the image element (lines 68-70), by whether it is hidden. *)
Definition imageClass (hidden : bool) : string :=
  "h-full w-full object-cover transition-all duration-500 "
  ++ (if hidden then "opacity-0" else "opacity-100 group-hover:opacity-90").

(** The characters of an encoded component: the unreserved ones and [%]. *)
Definition uriSafe (c : ascii) : bool :=
  Js.uriUnreserved c || Ascii.eqb c "%".

(** ** Projects to try the card on *)

Definition paymentsDemo : Project :=
  {| title := "Payments & Escrow";
     description := "Escrow contracts with a dashboard";
     category := "blockchain";
     technologies := ["Solidity"; "React"];
     image := Some "/images/escrow.png";
     github := Some "https://github.com/example/escrow";
     liveDemo := None;
     featured := Some true |}.

Definition opsToolkit : Project :=
  {| title := "Ops Toolkit (v2)";
     description := "Deployment scripts";
     category := "devops";
     technologies := ["Bash"];
     image := None;
     github := None;
     liveDemo := None;
     featured := Some false |}.


Definition escrowRelaunch : Project :=
  {| title := "Payments & Escrow";
     description := "The escrow contracts, audited";
     category := "blockchain";
     technologies := ["Solidity"; "Foundry"; "React"];
     image := None;
     github := None;
     liveDemo := Some "https://escrow.example.org";
     featured := None |}.

Definition walletKit : Project :=
  {| title := "WalletKit-2.0";
     description := "Wallet connection components";
     category := "frontend";
     technologies := ["TypeScript"; "React"];
     image := None;
     github := Some "https://github.com/example/walletkit";
     liveDemo := None;
     featured := None |}.

(** * Properties *)

(** ** Truthiness *)

Lemma truthy_ofOption (o : option string) :
  Js.truthy (Js.ofOption o) = true <->
  exists s, o = Some s /\ s <> EmptyString.
Proof.
  destruct o as [s|]; cbn.
  - rewrite negb_true_iff, String.eqb_neq. split.
    + intros Hs. now exists s.
    + intros (s' & [= <-] & Hs). exact Hs.
  - split; [discriminate | intros (s & [=] & _)].
Qed.

Lemma truthyFlag_true (b : option bool) :
  truthyFlag b = true <-> b = Some true.
Proof.
  destruct b as [[|]|]; cbn; split; congruence.
Qed.

(** ** The technology tags inside the tree *)

Section TechTags.

Variable techs : list string.

Lemma descendants_techTags :
  flat_map descendants (map techTag techs)
  = flat_map (fun t => [techTag t; Text t]) techs.
Proof.
  induction techs as [|t rest IH]; [reflexivity|].
  cbn [map flat_map]. rewrite IH. reflexivity.
Qed.

Lemma existsb_techTags (f : Node -> bool) :
  (forall t, f (techTag t) = false) -> (forall t, f (Text t) = false) ->
  existsb f (flat_map descendants (map techTag techs)) = false.
Proof.
  intros Htag Htext. rewrite descendants_techTags.
  induction techs as [|t rest IH]; [reflexivity|].
  cbn [flat_map app existsb]. now rewrite Htag, Htext, IH.
Qed.

Lemma filter_techTags (f : Node -> bool) :
  (forall t, f (techTag t) = false) -> (forall t, f (Text t) = false) ->
  filter f (flat_map descendants (map techTag techs)) = [].
Proof.
  intros Htag Htext. rewrite descendants_techTags.
  induction techs as [|t rest IH]; [reflexivity|].
  cbn [flat_map app filter]. now rewrite Htag, Htext, IH.
Qed.

Lemma text_techTags :
  flat_map (fun n => match n with Text s => [s] | Element _ _ _ _ => [] end)
           (flat_map descendants (map techTag techs))
  = techs.
Proof.
  rewrite descendants_techTags.
  induction techs as [|t rest IH]; [reflexivity|].
  cbn [flat_map app]. now rewrite IH.
Qed.

End TechTags.

(** Unfolds the card down to its explicit list of nodes, the tags apart. *)
Ltac open_card project st :=
  unfold ProjectCard, imageContainer, content;
  destruct (imageLoading st) eqn:?,
           (Js.truthy (Js.ofOption (liveDemo project))) eqn:?,
           (truthyFlag (featured project)) eqn:?,
           (Js.truthy (Js.ofOption (github project))) eqn:?;
  cbn [descendants flat_map app when el loadingOverlay liveDemoBadge
       featuredBadge codeLink liveDemoLink projectImage].

(** ** The image element and its callbacks *)

Lemma byTag_img_card (project : Project) (index : nat) (st : RenderState) :
  byTag "img" (ProjectCard project index st) = [projectImage project st].
Proof.
  unfold byTag. open_card project st.
  all: cbn [filter hasTag String.eqb Ascii.eqb Bool.eqb].
  all: rewrite ?filter_app, filter_techTags by reflexivity; reflexivity.
Qed.

Lemma imageSources_card (project : Project) (index : nat) (st : RenderState) :
  imageSources (ProjectCard project index st)
  = [Some (getImageSource project st)].
Proof.
  unfold imageSources. rewrite byTag_img_card. reflexivity.
Qed.

Lemma step_handler (project : Project) (index : nat) (st : RenderState)
  (ev : ImageEvent) :
  step project index st ev
  = match ev with
    | OnLoad => handleImageLoad st
    | OnError => handleImageError st
    end.
Proof.
  unfold step, dispatch. open_card project st.
  all: destruct ev; reflexivity.
Qed.

(** ** What the card shows *)

Lemma tagLabel_techTag (t : string) : tagLabel (techTag t) = [t].
Proof.
  cbn [tagLabel techTag el markupEqb attrsEqb].
  now rewrite !String.eqb_refl.
Qed.

Lemma tagLabel_techTags (tag : string) (attrs : list (string * string))
  (on : list (string * Handler)) (techs : list string) :
  tagLabel (Element tag attrs on (map techTag techs)) = [].
Proof.
  destruct techs as [|t [|t' rest]]; reflexivity.
Qed.

Lemma shownTags_techTags (techs : list string) :
  flat_map tagLabel (flat_map descendants (map techTag techs)) = techs.
Proof.
  rewrite descendants_techTags.
  induction techs as [|t rest IH]; [reflexivity|].
  cbn [flat_map app]. rewrite tagLabel_techTag, IH. reflexivity.
Qed.

Lemma occurs_loadingOverlay (project : Project) (index : nat)
  (st : RenderState) :
  occurs loadingOverlay (ProjectCard project index st) = imageLoading st.
Proof.
  unfold occurs. open_card project st.
  all: cbn [existsb].
  all: rewrite ?existsb_app, existsb_techTags by reflexivity; reflexivity.
Qed.

(** The text of the card: the spinner's line while loading, the badges,
    then category, title, description, the tags and the link labels. *)
Lemma textOf_card (project : Project) (index : nat) (st : RenderState) :
  textOf (ProjectCard project index st)
  = (if imageLoading st then ["Loading preview..."] else [])
    ++ (if Js.truthy (Js.ofOption (liveDemo project))
        then ["LIVE DEMO"] else [])
    ++ (if truthyFlag (featured project) then ["⭐ Featured"] else [])
    ++ [category project; title project; description project]
    ++ technologies project
    ++ (if Js.truthy (Js.ofOption (github project)) then ["Code"] else [])
    ++ (if Js.truthy (Js.ofOption (liveDemo project))
        then ["Live Demo"] else []).
Proof.
  unfold textOf. open_card project st.
  all: rewrite ?flat_map_app, text_techTags, <- ?app_assoc; reflexivity.
Qed.

(** The tags are the project's technologies, in the order given. *)
Lemma shownTags_card (project : Project) (index : nat) (st : RenderState) :
  shownTags (ProjectCard project index st) = technologies project.
Proof.
  unfold shownTags. open_card project st.
  all: rewrite ?flat_map_app, shownTags_techTags, tagLabel_techTags.
  all: cbn; now rewrite !app_nil_r.
Qed.

(** The links of the card: the code link when [github] is truthy, then the
    live-demo link when [liveDemo] is truthy, and no other. *)
Lemma byTag_a_card (project : Project) (index : nat) (st : RenderState) :
  byTag "a" (ProjectCard project index st)
  = when (Js.truthy (Js.ofOption (github project)))
         (codeLink (stringOf (github project)))
    ++ when (Js.truthy (Js.ofOption (liveDemo project)))
            (liveDemoLink (stringOf (liveDemo project))).
Proof.
  unfold byTag. open_card project st.
  all: cbn [filter hasTag String.eqb Ascii.eqb Bool.eqb].
  all: rewrite ?filter_app, filter_techTags by reflexivity; reflexivity.
Qed.

Lemma linkRendered_card (project : Project) (index : nat) (st : RenderState) :
  linkRendered "Code" (ProjectCard project index st)
  = Js.truthy (Js.ofOption (github project))
  /\ linkRendered "Live Demo" (ProjectCard project index st)
     = Js.truthy (Js.ofOption (liveDemo project)).
Proof.
  unfold linkRendered. open_card project st.
  all: cbn [existsb].
  all: rewrite ?existsb_app, !existsb_techTags by reflexivity.
  all: split; reflexivity.
Qed.

(** ** The placeholder *)

(** For a category that names no inherited property, the fallback of lines
    22-28 is the placeholder of the spec: the pair of the category, or the
    fourth pair, and the title percent-encoded. *)
Lemma placeholderSource_placeholderUrl (project : Project) :
  inherited (category project) = false ->
  placeholderSource project = placeholderUrl project.
Proof.
  unfold placeholderSource, placeholderUrl, colorPair, inherited, Js.get.
  cbn [categoryColors Js.assoc].
  destruct (category project =? "blockchain"); [reflexivity|].
  destruct (category project =? "frontend"); [reflexivity|].
  destruct (category project =? "fullstack"); [reflexivity|].
  destruct (Js.assoc (category project) Js.objectPrototype);
    [discriminate | reflexivity].
Qed.

(** Without a truthy [image], or once the error flag is set, the source is
    the fallback. *)
Lemma getImageSource_fallback (project : Project) (st : RenderState) :
  Js.truthy (Js.ofOption (image project)) = false \/ imageError st = true ->
  getImageSource project st = placeholderSource project.
Proof.
  unfold getImageSource. intros [-> | ->]; [reflexivity|].
  now rewrite andb_false_r.
Qed.

(** * The card's contract *)

(** C1: for a project whose [image] is a non-empty string, rendered while no
    image error has occurred, the [src] of the card's image is
    [project.image] itself. *)
Theorem image_source_is_project_image (project : Project) (index : nat)
  (st : RenderState) (img : string) :
  image project = Some img ->
  img <> EmptyString ->
  imageError st = false ->
  imageSources (ProjectCard project index st) = [Some img].
Proof.
  intros Himage Hnonempty Hok.
  rewrite imageSources_card. unfold getImageSource.
  rewrite Himage, Hok. cbn [Js.ofOption Js.truthy stringOf].
  apply String.eqb_neq in Hnonempty. now rewrite Hnonempty.
Qed.

Lemma image_source_is_project_image_witness :
  image paymentsDemo = Some "/images/escrow.png"
  /\ "/images/escrow.png" <> EmptyString
  /\ imageError initialState = false
  /\ imageSources (ProjectCard paymentsDemo 0 initialState)
     = [Some "/images/escrow.png"].
Proof.
  split; [reflexivity|]. split; [discriminate|]. split; [reflexivity|].
  apply (@image_source_is_project_image paymentsDemo 0 initialState
           "/images/escrow.png"); [reflexivity | discriminate | reflexivity].
Defined.

(** Where the category names no property inherited from [Object.prototype]:
    for a project without [image], or once an image error has occurred, the
    [src] of the card's image is
    [https://via.placeholder.com/800x600/{pair}?text={title}] with the pair
    of the category ([blockchain], [frontend], [fullstack]), the fourth pair
    for any other category, and the title percent-encoded. *)
Theorem placeholder_source (project : Project) (index : nat)
  (st : RenderState) :
  image project = None \/ imageError st = true ->
  inherited (category project) = false ->
  imageSources (ProjectCard project index st) = [Some (placeholderUrl project)].
Proof.
  intros Hfallback Hown.
  rewrite imageSources_card, getImageSource_fallback.
  - now rewrite placeholderSource_placeholderUrl.
  - destruct Hfallback as [-> | Herror]; [now left | now right].
Qed.

Lemma placeholder_source_witness :
  (image opsToolkit = None \/ imageError initialState = true)
  /\ inherited (category opsToolkit) = false
  /\ imageSources (ProjectCard opsToolkit 3 initialState)
     = [Some "https://via.placeholder.com/800x600/1e293b/64748b?text=Ops%20Toolkit%20(v2)"].
Proof.
  split; [left; reflexivity|]. split; [reflexivity|].
  apply (@placeholder_source opsToolkit 3 initialState);
    [left; reflexivity | reflexivity].
Defined.

(** C2: the placeholder of a project without [image] is to carry the colour
    pair of its category, the fourth pair for any category outside the
    table.  On the category [constructor] the lookup of line 27 finds the
    inherited function [Object], the default of the same line is passed
    over, and the source carries the text of that function where the fourth
    pair belongs. *)
Theorem placeholder_inherited_category :
  let project :=
    {| title := "X"; description := EmptyString; category := "constructor";
       technologies := []; image := None; github := None; liveDemo := None;
       featured := None |} in
  image project = None
  /\ placeholderUrl project
     = "https://via.placeholder.com/800x600/1e293b/64748b?text=X"
  /\ imageSources (ProjectCard project 0 initialState)
     = [Some "https://via.placeholder.com/800x600/function Object() { [native code] }?text=X"]
  /\ imageSources (ProjectCard project 0 initialState)
     <> [Some (placeholderUrl project)].
Proof.
  cbv zeta. split; [reflexivity|]. split; [reflexivity|].
  split; [reflexivity|]. discriminate.
Qed.

(** The error path, for every project: an error event runs the card's own
    callback, which sets the error flag and clears the loading flag; the next
    render has the fallback of lines 22-28 as image source, has no loading
    overlay, and shows the very text that it shows after a load event: no
    message is added. *)
Theorem image_error_falls_back (project : Project) (index : nat)
  (st : RenderState) :
  let st' := step project index st OnError in
  st' = handleImageError st
  /\ imageError st' = true
  /\ imageLoading st' = false
  /\ imageSources (ProjectCard project index st')
     = [Some (placeholderSource project)]
  /\ occurs loadingOverlay (ProjectCard project index st') = false
  /\ textOf (ProjectCard project index st')
     = textOf (ProjectCard project index (step project index st OnLoad)).
Proof.
  cbv zeta. rewrite !step_handler.
  split; [reflexivity|]. split; [reflexivity|]. split; [reflexivity|].
  split; [|split].
  - rewrite imageSources_card, getImageSource_fallback; [reflexivity|].
    now right.
  - now rewrite occurs_loadingOverlay.
  - now rewrite !textOf_card.
Qed.

(** Where the category names no inherited property, the source after an
    error is the placeholder of the category. *)
Lemma image_error_placeholder (project : Project) (index : nat)
  (st : RenderState) :
  inherited (category project) = false ->
  imageSources (ProjectCard project index (step project index st OnError))
  = [Some (placeholderUrl project)].
Proof.
  intros Hown. rewrite step_handler, imageSources_card.
  rewrite getImageSource_fallback by now right.
  now rewrite placeholderSource_placeholderUrl.
Qed.

(** C3: after an image error the card is to show the placeholder of the
    category, with the error flag set and the loading overlay gone.  For a
    project of category [constructor] with an image, the error event sets
    the flags and removes the overlay, and the next render has as image
    source the URL with the text of the function [Object], not the
    placeholder of the category. *)
Theorem image_error_inherited_category :
  let project :=
    {| title := "X"; description := EmptyString; category := "constructor";
       technologies := []; image := Some "/images/x.png"; github := None;
       liveDemo := None; featured := None |} in
  let st' := step project 0 initialState OnError in
  imageSources (ProjectCard project 0 initialState) = [Some "/images/x.png"]
  /\ imageError st' = true
  /\ imageLoading st' = false
  /\ occurs loadingOverlay (ProjectCard project 0 st') = false
  /\ shows "Loading preview..." (ProjectCard project 0 st') = false
  /\ placeholderUrl project
     = "https://via.placeholder.com/800x600/1e293b/64748b?text=X"
  /\ imageSources (ProjectCard project 0 st')
     = [Some "https://via.placeholder.com/800x600/function Object() { [native code] }?text=X"].
Proof.
  cbv zeta. repeat split; reflexivity.
Qed.

(** C4: from the first render on, whatever load and error events follow,
    [imageLoading] is [true] on the first render and [false] on every later
    one: it falls once, at the first event, and never rises. *)
Theorem loading_falls_once (project : Project) (index : nat)
  (ev : ImageEvent) (evs : list ImageEvent) :
  let history :=
    map imageLoading (renders project index initialState (ev :: evs)) in
  history = true :: repeat false (S (length evs))
  /\ flips true history = 1
  /\ flips false history = 0.
Proof.
  cbv zeta.
  assert (Hlater : forall events st, imageLoading st = false ->
            map imageLoading (renders project index st events)
            = repeat false (S (length events))).
  { induction events as [|e rest IH]; intros st Hst; cbn [renders map].
    - now rewrite Hst.
    - rewrite Hst, IH; [reflexivity|].
      rewrite step_handler. now destruct e. }
  assert (Hquiet : forall n, flips true (repeat false n) = 0
                             /\ flips false (repeat false n) = 0).
  { induction n as [|[|n] IH]; [now split | now split |].
    destruct IH as [IHt IHf]. split.
    - change (flips true (repeat false (S (S n))))
        with (flips true (repeat false (S n))). exact IHt.
    - change (flips false (repeat false (S (S n))))
        with (flips false (repeat false (S n))). exact IHf. }
  cbn [renders map]. rewrite Hlater by (rewrite step_handler; now destruct ev).
  destruct (Hquiet (S (length evs))) as [Ht Hf].
  repeat split.
  - change (flips true (imageLoading initialState :: repeat false (S (length evs))))
      with (1 + flips true (repeat false (S (length evs)))).
    now rewrite Ht.
  - change (flips false (imageLoading initialState :: repeat false (S (length evs))))
      with (0 + flips false (repeat false (S (length evs)))).
    now rewrite Hf.
Qed.

(** C5, as stated, fails on a [github] that is set to the empty string: the
    field is there and no code link is rendered. *)
Lemma links_iff_set_counterexample :
  let project :=
    {| title := "X"; description := EmptyString; category := "frontend";
       technologies := []; image := None; github := Some EmptyString;
       liveDemo := None; featured := None |} in
  github project <> None
  /\ linkRendered "Code" (ProjectCard project 0 initialState) = false
  /\ byTag "a" (ProjectCard project 0 initialState) = [].
Proof.
  cbv zeta. split; [discriminate|]. split; reflexivity.
Qed.

(** C5, amended: the code link is rendered exactly when [github] is a
    non-empty string and the live-demo link exactly when [liveDemo] is one;
    the card has no other link, each one leads to its field, and each one has
    [target="_blank"] and [rel="noopener noreferrer"]. *)
Theorem links_iff_truthy (project : Project) (index : nat)
  (st : RenderState) :
  let tree := ProjectCard project index st in
  (linkRendered "Code" tree = true <->
   exists url, github project = Some url /\ url <> EmptyString)
  /\ (linkRendered "Live Demo" tree = true <->
      exists url, liveDemo project = Some url /\ url <> EmptyString)
  /\ byTag "a" tree
     = when (Js.truthy (Js.ofOption (github project)))
            (codeLink (stringOf (github project)))
       ++ when (Js.truthy (Js.ofOption (liveDemo project)))
               (liveDemoLink (stringOf (liveDemo project)))
  /\ Forall (fun a => attr "target" a = Some "_blank"
                      /\ attr "rel" a = Some "noopener noreferrer")
            (byTag "a" tree).
Proof.
  cbv zeta.
  destruct (linkRendered_card project index st) as [Hcode Hlive].
  rewrite Hcode, Hlive, byTag_a_card, !truthy_ofOption.
  repeat split; try tauto.
  apply Forall_app. split.
  - destruct (Js.truthy (Js.ofOption (github project))); cbn [when];
      repeat constructor.
  - destruct (Js.truthy (Js.ofOption (liveDemo project))); cbn [when];
      repeat constructor.
Qed.

(** The texts of the image area: the line of the overlay while loading, and
    the texts of the badges. *)
Lemma textOf_imageArea (project : Project) (index : nat) (st : RenderState) :
  textOf (imageArea (ProjectCard project index st))
  = (if imageLoading st then ["Loading preview..."] else [])
    ++ (if Js.truthy (Js.ofOption (liveDemo project))
        then ["LIVE DEMO"] else [])
    ++ (if truthyFlag (featured project) then ["⭐ Featured"] else []).
Proof.
  unfold ProjectCard. cbn [imageArea childrenOf el hd].
  unfold imageContainer.
  destruct (imageLoading st), (Js.truthy (Js.ofOption (liveDemo project))),
           (truthyFlag (featured project)); reflexivity.
Qed.

(** C6: the LIVE DEMO badge is in the card exactly when [project.liveDemo]
    is truthy: the badge of lines 83-88, whose one text is [LIVE DEMO],
    occurs in the card exactly then, and the image area of the card shows
    the text [LIVE DEMO] exactly then. *)
Theorem live_demo_badge_iff_truthy (project : Project) (index : nat)
  (st : RenderState) :
  let tree := ProjectCard project index st in
  occurs liveDemoBadge tree = Js.truthy (Js.ofOption (liveDemo project))
  /\ textOf liveDemoBadge = ["LIVE DEMO"]
  /\ shows "LIVE DEMO" (imageArea tree)
     = Js.truthy (Js.ofOption (liveDemo project)).
Proof.
  cbv zeta. split; [|split; [reflexivity|]].
  - unfold occurs. open_card project st.
    all: cbn [existsb].
    all: rewrite ?existsb_app, existsb_techTags by reflexivity; reflexivity.
  - unfold shows. rewrite textOf_imageArea.
    destruct (imageLoading st), (Js.truthy (Js.ofOption (liveDemo project))),
             (truthyFlag (featured project)); reflexivity.
Qed.

(** C7: the Featured badge is in the card exactly when [project.featured]
    is [true]: the badge of lines 93-97, whose one text is [⭐ Featured],
    occurs in the card exactly then, and the image area of the card shows
    that text exactly then. *)
Theorem featured_badge_iff_true (project : Project) (index : nat)
  (st : RenderState) :
  let tree := ProjectCard project index st in
  (occurs featuredBadge tree = true <-> featured project = Some true)
  /\ textOf featuredBadge = ["⭐ Featured"]
  /\ (shows "⭐ Featured" (imageArea tree) = true
      <-> featured project = Some true).
Proof.
  cbv zeta. rewrite <- truthyFlag_true.
  split; [|split; [reflexivity|]].
  - enough (occurs featuredBadge (ProjectCard project index st)
            = truthyFlag (featured project)) as -> by reflexivity.
    unfold occurs. open_card project st.
    all: cbn [existsb].
    all: rewrite ?existsb_app, existsb_techTags by reflexivity; reflexivity.
  - enough (shows "⭐ Featured" (imageArea (ProjectCard project index st))
            = truthyFlag (featured project)) as -> by reflexivity.
    unfold shows. rewrite textOf_imageArea.
    destruct (imageLoading st), (Js.truthy (Js.ofOption (liveDemo project))),
             (truthyFlag (featured project)); reflexivity.
Qed.

(** C8: the card of [{title:"X", category:"frontend", technologies:["A","B"]}],
    with no [image], [github], [liveDemo] or [featured] and whatever its
    description and position, first renders with the frontend placeholder for
    [X] as image source, the two tags [A] and [B] in that order, neither
    badge and no link. *)
Theorem example_frontend_card (text : string) (index : nat) :
  let project :=
    {| title := "X"; description := text; category := "frontend";
       technologies := ["A"; "B"]; image := None; github := None;
       liveDemo := None; featured := None |} in
  let tree := ProjectCard project index initialState in
  imageSources tree
  = [Some "https://via.placeholder.com/800x600/1e1b4b/a855f7?text=X"]
  /\ shownTags tree = ["A"; "B"]
  /\ occurs liveDemoBadge tree = false
  /\ occurs featuredBadge tree = false
  /\ linkRendered "Code" tree = false
  /\ linkRendered "Live Demo" tree = false
  /\ byTag "a" tree = [].
Proof.
  cbv zeta. repeat split; reflexivity.
Qed.



(** C10: a load event runs [handleImageLoad], which clears the loading flag
    and leaves the error flag as it was; the image source, as computed and as
    rendered, is the same before and after. *)
Theorem load_keeps_image_source (project : Project) (index : nat)
  (st : RenderState) :
  let st' := step project index st OnLoad in
  st' = handleImageLoad st
  /\ imageLoading st' = false
  /\ imageError st' = imageError st
  /\ getImageSource project st' = getImageSource project st
  /\ imageSources (ProjectCard project index st')
     = imageSources (ProjectCard project index st).
Proof.
  cbv zeta. rewrite step_handler, !imageSources_card.
  unfold getImageSource, handleImageLoad; cbn [imageError imageLoading].
  repeat split; reflexivity.
Qed.

(** * Further properties of the card *)

(** ** The two flags under events *)

(** A property of the state that every event keeps holds on every render. *)
Lemma renders_invariant (project : Project) (index : nat)
  (I : RenderState -> Prop) :
  (forall st ev, I st -> I (step project index st ev)) ->
  forall evs st, I st -> Forall I (renders project index st evs).
Proof.
  intros Hstep. induction evs as [|ev rest IH]; intros st Hst; cbn [renders].
  - now constructor.
  - constructor; [exact Hst|]. apply IH, Hstep, Hst.
Qed.

(** X1: after any events, in any order, the error flag is set exactly when
    it was set before or one of the events was an error, and the loading flag
    is set exactly when it was set before and there was no event at all. *)
Theorem run_flags (project : Project) (index : nat) (st : RenderState)
  (evs : list ImageEvent) :
  imageError (run project index st evs)
  = imageError st || existsb isError evs
  /\ imageLoading (run project index st evs)
     = imageLoading st && match evs with [] => true | _ :: _ => false end.
Proof.
  unfold run. revert st.
  induction evs as [|ev rest IH]; intros st; cbn [fold_left existsb].
  - now rewrite orb_false_r, andb_true_r.
  - destruct (IH (step project index st ev)) as [IHerror IHloading].
    rewrite IHerror, IHloading, step_handler, andb_false_r.
    destruct ev; cbn [handleImageLoad handleImageError imageError
                      imageLoading isError]; split.
    + reflexivity.
    + reflexivity.
    + now rewrite orb_true_r.
    + reflexivity.
Qed.

(** X2: an error is never undone.  From the render after an error event on,
    whatever load and error events follow, the error flag stays set, the
    image source stays the fallback placeholder and the loading overlay stays
    away: a later load event does not bring [project.image] back. *)
Theorem error_is_sticky (project : Project) (index : nat) (st : RenderState)
  (evs : list ImageEvent) :
  Forall (fun s =>
            imageError s = true
            /\ imageLoading s = false
            /\ imageSources (ProjectCard project index s)
               = [Some (placeholderSource project)]
            /\ occurs loadingOverlay (ProjectCard project index s) = false)
         (renders project index (step project index st OnError) evs).
Proof.
  apply Forall_impl
    with (P := fun s => imageError s = true /\ imageLoading s = false).
  - intros s [Herror Hloading]. repeat split; try assumption.
    + rewrite imageSources_card, getImageSource_fallback; [reflexivity|].
      now right.
    + now rewrite occurs_loadingOverlay.
  - apply renders_invariant.
    + intros s ev [Herror Hloading]. rewrite step_handler.
      destruct ev; cbn; auto.
    + rewrite step_handler. now split.
Qed.

(** X3: from the first render on, no render has the error flag and the
    loading flag both set. *)
Theorem never_loading_after_error (project : Project) (index : nat)
  (evs : list ImageEvent) :
  Forall (fun s => imageError s && imageLoading s = false)
         (renders project index initialState evs).
Proof.
  apply renders_invariant.
  - intros s ev _. rewrite step_handler.
    destruct ev; cbn; now rewrite ?andb_false_r.
  - reflexivity.
Qed.

(** ** The image element *)

Lemma callbacks_techTags (techs : list string) :
  flat_map callbacks (flat_map descendants (map techTag techs)) = [].
Proof.
  rewrite descendants_techTags.
  induction techs as [|t rest IH]; [reflexivity|].
  cbn [flat_map app]. now rewrite IH.
Qed.

(** X4: the loading overlay is in the card exactly while [imageLoading], and
    the image is transparent ([opacity-0]) exactly when the overlay is
    there. *)
Theorem image_hidden_while_loading (project : Project) (index : nat)
  (st : RenderState) :
  let tree := ProjectCard project index st in
  occurs loadingOverlay tree = imageLoading st
  /\ map (attr "className") (byTag "img" tree)
     = [Some (imageClass (occurs loadingOverlay tree))].
Proof.
  cbv zeta. rewrite occurs_loadingOverlay, byTag_img_card.
  split; reflexivity.
Qed.

(** X5: whatever the project and the state, the card has one image element;
    its [alt] is [Preview of] followed by the title, and it loads lazily. *)
Theorem one_image_with_alt (project : Project) (index : nat)
  (st : RenderState) :
  map (fun img => (attr "alt" img, attr "loading" img))
      (byTag "img" (ProjectCard project index st))
  = [(Some ("Preview of " ++ title project)%string, Some "lazy")].
Proof.
  rewrite byTag_img_card. reflexivity.
Qed.

(** X6: the card listens to two events only, the load and the error of its
    image: no other element has a callback. *)
Theorem only_image_callbacks (project : Project) (index : nat)
  (st : RenderState) :
  flat_map callbacks (descendants (ProjectCard project index st))
  = [("onLoad", handleImageLoad); ("onError", handleImageError)]
  /\ flat_map callbacks (byTag "img" (ProjectCard project index st))
     = [("onLoad", handleImageLoad); ("onError", handleImageError)].
Proof.
  split; [|now rewrite byTag_img_card].
  open_card project st.
  all: rewrite ?flat_map_app, callbacks_techTags; reflexivity.
Qed.

(** X10: the image source is never empty: it is a non-empty [project.image]
    or a placeholder URL. *)
Theorem image_source_never_empty (project : Project) (index : nat)
  (st : RenderState) :
  exists src,
    imageSources (ProjectCard project index st) = [Some src]
    /\ src <> EmptyString.
Proof.
  exists (getImageSource project st). split; [apply imageSources_card|].
  unfold getImageSource.
  destruct (Js.truthy (Js.ofOption (image project))) eqn:Htruthy; cbn [andb].
  - apply truthy_ofOption in Htruthy. destruct Htruthy as (s & -> & Hs).
    destruct (negb (imageError st)); [exact Hs | discriminate].
  - discriminate.
Qed.

(** ** Badges, text and tags *)

Lemma occurs_liveDemoBadge (project : Project) (index : nat)
  (st : RenderState) :
  occurs liveDemoBadge (ProjectCard project index st)
  = Js.truthy (Js.ofOption (liveDemo project)).
Proof.
  unfold occurs. open_card project st.
  all: cbn [existsb].
  all: rewrite ?existsb_app, existsb_techTags by reflexivity; reflexivity.
Qed.

(** X7: the LIVE DEMO badge and the live-demo link go together: the card has
    both or neither. *)
Theorem live_demo_badge_with_link (project : Project) (index : nat)
  (st : RenderState) :
  occurs liveDemoBadge (ProjectCard project index st)
  = linkRendered "Live Demo" (ProjectCard project index st).
Proof.
  destruct (linkRendered_card project index st) as [_ ->].
  apply occurs_liveDemoBadge.
Qed.

(** X8: once loading is over, with or without an error, the text of the card
    is, in this order: the badge texts, then those of category, title and
    description that are not empty, as given, the technologies that are not
    empty, and the labels of the links.  An empty string shows nothing. *)
Theorem text_after_loading (project : Project) (index : nat) (failed : bool) :
  visibleText (ProjectCard project index
                 {| imageError := failed; imageLoading := false |})
  = (if Js.truthy (Js.ofOption (liveDemo project))
     then ["LIVE DEMO"] else [])
    ++ (if truthyFlag (featured project) then ["⭐ Featured"] else [])
    ++ filter (fun s => negb (s =? EmptyString))
              [category project; title project; description project]
    ++ filter (fun s => negb (s =? EmptyString)) (technologies project)
    ++ (if Js.truthy (Js.ofOption (github project)) then ["Code"] else [])
    ++ (if Js.truthy (Js.ofOption (liveDemo project))
        then ["Live Demo"] else []).
Proof.
  unfold visibleText. rewrite textOf_card, !filter_app.
  destruct (Js.truthy (Js.ofOption (liveDemo project))),
           (truthyFlag (featured project)),
           (Js.truthy (Js.ofOption (github project))); reflexivity.
Qed.

(** X9: in every state the technology tags of the card are the project's
    technologies, one tag each, in the order given; an empty list gives no
    tag, and nothing else in the card is marked up as a tag. *)
Theorem tags_in_input_order (project : Project) (index : nat)
  (st : RenderState) :
  shownTags (ProjectCard project index st) = technologies project.
Proof.
  apply shownTags_card.
Qed.

(** ** The encoded title *)

Lemma list_ascii_of_string_app (a b : string) :
  list_ascii_of_string (a ++ b)
  = list_ascii_of_string a ++ list_ascii_of_string b.
Proof.
  induction a as [|c a IH]; cbn; [reflexivity | now rewrite IH].
Qed.

Lemma hexDigit_unreserved (d : nat) : Js.uriUnreserved (Js.hexDigit d) = true.
Proof.
  do 16 (destruct d as [|d]; [reflexivity|]). reflexivity.
Qed.

Lemma hexDigit_inj (a b : nat) :
  a < 16 -> b < 16 -> Js.hexDigit a = Js.hexDigit b -> a = b.
Proof.
  intros Ha Hb.
  do 16 (destruct a as [|a]; [
    do 16 (destruct b as [|b]; [reflexivity || discriminate|]); lia |]).
  lia.
Qed.

Lemma percentEscape_inj (c d : ascii) (s t : string) :
  (Js.percentEscape c ++ s)%string = (Js.percentEscape d ++ t)%string ->
  c = d /\ s = t.
Proof.
  unfold Js.percentEscape.
  remember (nat_of_ascii c / 16) as ch eqn:Hch.
  remember (nat_of_ascii c mod 16) as cl eqn:Hcl.
  remember (nat_of_ascii d / 16) as dh eqn:Hdh.
  remember (nat_of_ascii d mod 16) as dl eqn:Hdl.
  cbn [append]. intros [= Hhigh Hlow Hrest]. subst ch cl dh dl.
  split; [|exact Hrest].
  assert (Hc := nat_ascii_bounded c). assert (Hd := nat_ascii_bounded d).
  apply hexDigit_inj in Hhigh;
    [| apply Nat.Div0.div_lt_upper_bound; lia
     | apply Nat.Div0.div_lt_upper_bound; lia].
  apply hexDigit_inj in Hlow;
    [| apply Nat.mod_upper_bound; lia | apply Nat.mod_upper_bound; lia].
  rewrite <- (ascii_nat_embedding c), <- (ascii_nat_embedding d).
  f_equal.
  rewrite (Nat.div_mod_eq (nat_of_ascii c) 16),
          (Nat.div_mod_eq (nat_of_ascii d) 16).
  now rewrite Hhigh, Hlow.
Qed.

(** X11: the text of the placeholder query is made of unreserved characters
    and [%] only: no title can put a space, [&], [#], [?], [/] or [=] into
    the URL. *)
Theorem encoded_title_is_uri_safe (project : Project) :
  forallb uriSafe
    (list_ascii_of_string (Js.encodeURIComponent (title project))) = true
  /\ forallb (fun c => negb (uriSafe c)) (list_ascii_of_string " &#?/=+")
     = true.
Proof.
  split; [|reflexivity].
  induction (title project) as [|c rest IH]; [reflexivity|].
  cbn [Js.encodeURIComponent]. rewrite list_ascii_of_string_app, forallb_app, IH.
  rewrite andb_true_r. unfold uriSafe.
  destruct (Js.uriUnreserved c) eqn:Hc.
  - cbn [list_ascii_of_string forallb]. now rewrite Hc.
  - unfold Js.percentEscape. cbn [list_ascii_of_string forallb].
    now rewrite !hexDigit_unreserved.
Qed.

Lemma encodeURIComponent_inj (s t : string) :
  Js.encodeURIComponent s = Js.encodeURIComponent t -> s = t.
Proof.
  revert t. induction s as [|c s IH]; intros [|d t]; cbn [Js.encodeURIComponent].
  - reflexivity.
  - destruct (Js.uriUnreserved d); discriminate.
  - destruct (Js.uriUnreserved c); discriminate.
  - destruct (Js.uriUnreserved c) eqn:Hc, (Js.uriUnreserved d) eqn:Hd;
      intros Heq.
    + injection Heq as -> Hrest. f_equal. now apply IH.
    + unfold Js.percentEscape in Heq. injection Heq as -> _. discriminate Hc.
    + unfold Js.percentEscape in Heq. injection Heq as <- _. discriminate Hd.
    + apply percentEscape_inj in Heq. destruct Heq as [-> Hrest].
      f_equal. now apply IH.
Qed.

Lemma append_cancel_l (p a b : string) : (p ++ a = p ++ b)%string -> a = b.
Proof.
  induction p as [|c p IH]; cbn [append]; [easy|].
  intros [= H]. now apply IH.
Qed.

(** X12: within one category, projects with different titles get different
    placeholders. *)
Theorem placeholder_separates_titles (p q : Project) :
  category p = category q ->
  placeholderSource p = placeholderSource q ->
  title p = title q.
Proof.
  unfold placeholderSource. intros <- Heq.
  do 3 apply append_cancel_l in Heq.
  now apply encodeURIComponent_inj.
Qed.

Lemma placeholder_separates_titles_witness :
  category paymentsDemo = category escrowRelaunch
  /\ placeholderSource paymentsDemo = placeholderSource escrowRelaunch
  /\ title paymentsDemo = title escrowRelaunch.
Proof.
  split; [reflexivity|]. split; [reflexivity|].
  apply (@placeholder_separates_titles paymentsDemo escrowRelaunch);
    reflexivity.
Defined.

(** X13: a title made of letters, digits and [-_.!~*'()] is put into the
    placeholder as it is. *)
Theorem unreserved_title_verbatim (project : Project) :
  forallb Js.uriUnreserved (list_ascii_of_string (title project)) = true ->
  Js.encodeURIComponent (title project) = title project.
Proof.
  induction (title project) as [|c rest IH]; [reflexivity|].
  cbn [list_ascii_of_string forallb Js.encodeURIComponent].
  intros [-> Hrest]%andb_prop. cbn [append]. now rewrite IH.
Qed.

Lemma unreserved_title_verbatim_witness :
  forallb Js.uriUnreserved (list_ascii_of_string (title walletKit)) = true
  /\ Js.encodeURIComponent (title walletKit) = "WalletKit-2.0".
Proof.
  split; [reflexivity|].
  apply (@unreserved_title_verbatim walletKit). reflexivity.
Defined.

(** X14: the fallback is the placeholder of the spec exactly for the
    categories that name no inherited property: each of the twelve inherited
    names gives another URL. *)
Theorem placeholder_exact_iff_not_inherited (project : Project) :
  placeholderSource project = placeholderUrl project
  <-> inherited (category project) = false.
Proof.
  split; [|apply placeholderSource_placeholderUrl].
  destruct (inherited (category project)) eqn:Hinherited; [|reflexivity].
  intros Heq. exfalso. revert Hinherited Heq.
  unfold inherited, placeholderSource, placeholderUrl.
  destruct project as [t d c techs img gh live feat]. cbn [category title].
  unfold Js.objectPrototype. cbn [Js.assoc].
  repeat match goal with
         | |- context [String.eqb c ?key] =>
             let Hkey := fresh "Hkey" in
             destruct (String.eqb c key) eqn:Hkey;
             [ apply String.eqb_eq in Hkey; subst c; intros _; cbn;
               discriminate
             | clear Hkey ]
         end.
  intros Hnone. discriminate Hnone.
Qed.
